(** * ansi_colors_v2.py: the ANSI colour code map printer

    A shallow embedding of [show_ansi_colors] from [src/ansi_colors_v2.py].
    Python [str] values are Rocq [string]s (every character the program
    writes is ASCII), the two [dict] literals are association lists in
    insertion order, and the function body is a computation in a small
    state-and-exception monad over the function's frame: the two local
    tables and the text written to standard output so far. *)

From Stdlib Require Import List Arith Lia Bool.
From Stdlib Require Import Strings.Ascii Strings.String Numbers.DecimalString.
Import ListNotations.
Open Scope string_scope.

(** ** Python string primitives *)

Module PyStr.

(** The escape character: ['\033'] in a Python literal, byte 27. *)
Definition ESC : ascii := "027"%char.

(** The line terminator [print] appends. *)
Definition NL : ascii := "010"%char.

Definition chr (c : ascii) : string := String c EmptyString.

(** [s * n] *)
Fixpoint str_mul (s : string) (n : nat) : string :=
  match n with
  | O => EmptyString
  | S k => s ++ str_mul s k
  end.

(** [s.ljust(width)]: [s] itself when it is already [width] long or
    longer, otherwise [s] followed by the missing spaces. *)
Definition ljust (s : string) (width : nat) : string :=
  s ++ str_mul " " (width - String.length s).

(** [x in xs] for a list of strings. *)
Definition str_in (x : string) (xs : list string) : bool :=
  existsb (String.eqb x) xs.

(** Does character [c] occur in [s]? *)
Fixpoint occurs (c : ascii) (s : string) : bool :=
  match s with
  | EmptyString => false
  | String d r => Ascii.eqb c d || occurs c r
  end.

(** [s.split('\n')] *)
Fixpoint split_lines_aux (cur : string) (s : string) : list string :=
  match s with
  | EmptyString => [cur]
  | String c r =>
      if Ascii.eqb c NL then cur :: split_lines_aux EmptyString r
      else split_lines_aux (cur ++ chr c) r
  end.

Definition split_lines (s : string) : list string :=
  split_lines_aux EmptyString s.

(** [str(n)] for a natural number. *)
Definition str_of_nat (n : nat) : string :=
  NilEmpty.string_of_uint (Nat.to_uint n).

End PyStr.
Import PyStr.

(** ** Dictionaries in insertion order *)

Definition dict := list (string * string).

Fixpoint dict_get (d : dict) (k : string) : option string :=
  match d with
  | [] => None
  | (k', v) :: r => if String.eqb k k' then Some v else dict_get r k
  end.

Definition keys (d : dict) : list string := map fst d.

(** ** The literals of [show_ansi_colors] *)

Definition fg_colors : dict :=
  [ ("Black", "30"); ("Red", "31"); ("Green", "32"); ("Yellow", "33");
    ("Blue", "34"); ("Magenta", "35"); ("Cyan", "36"); ("White", "37");
    ("Bright Black", "90"); ("Bright Red", "91"); ("Bright Green", "92");
    ("Bright Yellow", "93"); ("Bright Blue", "94"); ("Bright Magenta", "95");
    ("Bright Cyan", "96"); ("Bright White", "97") ].

Definition bg_colors : dict :=
  [ ("Black", "40"); ("Red", "41"); ("Green", "42"); ("Yellow", "43");
    ("Blue", "44"); ("Magenta", "45"); ("Cyan", "46"); ("White", "47");
    ("Bright Black", "100"); ("Bright Red", "101"); ("Bright Green", "102");
    ("Bright Yellow", "103"); ("Bright Blue", "104"); ("Bright Magenta", "105");
    ("Bright Cyan", "106"); ("Bright White", "107") ].

(** [reset = '\033[0m'] (assigned and never read: the format strings
    spell the sequence out again). *)
Definition reset : string := chr ESC ++ "[0m".

Definition combinations : list (string * string) :=
  [ ("Bright White", "Blue");
    ("Yellow", "Bright Black");
    ("Bright Cyan", "Magenta");
    ("Bright Red", "Bright Yellow");
    ("Black", "Bright White") ].

(** The membership list of the contrast test. *)
Definition dark_backgrounds : list string :=
  [ "40"; "41"; "42"; "43"; "44"; "45"; "46"; "100" ].

(** ** The format strings *)

(** [f'\\033[{code}m']: the backslash is a character of the text. *)
Definition ansi_seq (code : string) : string := "\033[" ++ code ++ "m".

(** [f'\033[{code}m']: here the text starts with byte 27. *)
Definition sgr (code : string) : string := chr ESC ++ "[" ++ code ++ "m".

(** Foreground loop body. *)
Definition fg_colored_text (name code : string) : string :=
  sgr code ++ ljust name 15 ++ chr ESC ++ "[0m".

Definition fg_line (name code : string) : string :=
  fg_colored_text name code ++ " " ++ ljust (ansi_seq code) 10 ++ " Example text".

(** Background loop body. *)
Definition text_color (code : string) : string :=
  if str_in code dark_backgrounds then "97" else "30".

Definition colored_bg (name code : string) : string :=
  sgr (text_color code) ++ sgr code ++ ljust name 15 ++ chr ESC ++ "[0m".

Definition bg_line (name code : string) : string :=
  colored_bg name code ++ " " ++ ljust (ansi_seq code) 10 ++ " Example text".

(** Combination loop body. [bg_name.ljust(25)] binds tighter than [+]. *)
Definition comb_ansi_seq (fg_code bg_code : string) : string :=
  "\033[" ++ fg_code ++ ";" ++ bg_code ++ "m".

Definition comb_label (fg_name bg_name : string) : string :=
  fg_name ++ " on " ++ ljust bg_name 25.

Definition comb_colored_text (fg_name bg_name fg_code bg_code : string) : string :=
  chr ESC ++ "[" ++ fg_code ++ ";" ++ bg_code ++ "m"
    ++ comb_label fg_name bg_name ++ chr ESC ++ "[0m".

Definition comb_line (fg_name bg_name fg_code bg_code : string) : string :=
  comb_colored_text fg_name bg_name fg_code bg_code
    ++ " " ++ ljust (comb_ansi_seq fg_code bg_code) 15 ++ " Example text".

(** ** The frame and its monad *)

Record Frame := mkFrame {
  f_fg_colors : dict;
  f_bg_colors : dict;
  f_stdout : string
}.

Inductive result (A : Type) : Type :=
| Ok (a : A)
| KeyError (key : string).
Arguments Ok {A} a.
Arguments KeyError {A} key.

Definition M (A : Type) : Type := Frame -> result A * Frame.

Definition ret {A} (a : A) : M A := fun s => (Ok a, s).

Definition bind {A B} (m : M A) (k : A -> M B) : M B :=
  fun s =>
    match m s with
    | (Ok a, s') => k a s'
    | (KeyError key, s') => (KeyError key, s')
    end.

Notation "x <- m ;; k" := (bind m (fun x => k))
  (at level 61, m at next level, right associativity).
Notation "m ;;; k" := (bind m (fun _ => k))
  (at level 61, right associativity).

(** [print(s)]: writes [s] and a newline. *)
Definition print (s : string) : M unit :=
  fun f => (Ok tt, mkFrame (f_fg_colors f) (f_bg_colors f)
                           (f_stdout f ++ s ++ chr NL)).

Definition read_fg : M dict := fun f => (Ok (f_fg_colors f), f).
Definition read_bg : M dict := fun f => (Ok (f_bg_colors f), f).

(** [d[k]]: raises [KeyError] on a missing key. *)
Definition subscript (d : dict) (k : string) : M string :=
  fun f =>
    match dict_get d k with
    | Some v => (Ok v, f)
    | None => (KeyError k, f)
    end.

(** [for x in xs: body(x)] *)
Fixpoint for_each {A} (xs : list A) (body : A -> M unit) : M unit :=
  match xs with
  | [] => ret tt
  | x :: r => body x ;;; for_each r body
  end.

(** ** The function body *)

Definition fg_iteration : string * string -> M unit :=
  fun '(name, code) => print (fg_line name code).

Definition fg_loop : M unit :=
  d <- read_fg ;;
  for_each d fg_iteration.

Definition bg_iteration : string * string -> M unit :=
  fun '(name, code) => print (bg_line name code).

Definition bg_loop : M unit :=
  d <- read_bg ;;
  for_each d bg_iteration.

Definition comb_iteration : string * string -> M unit :=
  fun '(fg_name, bg_name) =>
    fgd <- read_fg ;;
    fg_code <- subscript fgd fg_name ;;
    bgd <- read_bg ;;
    bg_code <- subscript bgd bg_name ;;
    print (comb_line fg_name bg_name fg_code bg_code).

Definition comb_loop : M unit := for_each combinations comb_iteration.

(** The statements of the function after the three assignments at its
    top, in program order. *)
Definition statements : list (M unit) :=
  [ print (str_mul "=" 80);
    print "ANSI COLOR CODEMAP";
    print (str_mul "=" 80);
    print (chr NL ++ "FOREGROUND COLORS:");
    print (str_mul "-" 40);
    fg_loop;
    print (chr NL ++ "BACKGROUND COLORS:");
    print (str_mul "-" 40);
    bg_loop;
    print (chr NL ++ "COMBINATIONS (Foreground + Background):");
    print (str_mul "-" 40);
    comb_loop;
    print (chr NL ++ "USAGE NOTES:");
    print (str_mul "-" 40);
    print "1. All ANSI sequences start with \033[ and end with m";
    print "2. Separate multiple codes with semicolons (e.g., \033[31;44m)";
    print "3. Reset formatting with \033[0m";
    print (str_mul "=" 80) ].

Definition body : M unit := for_each statements (fun stmt => stmt).

(** The frame once the three assignments at the top have run, on a
    standard output that already holds [out]. *)
Definition enter (out : string) : Frame := mkFrame fg_colors bg_colors out.

(** [show_ansi_colors()]: the result and the standard output afterwards. *)
Definition show_ansi_colors (out : string) : result unit * string :=
  let '(r, f) := body (enter out) in (r, f_stdout f).

(** Text written by one call on an empty standard output, and its lines. *)
Definition output : string := snd (show_ansi_colors EmptyString).
Definition printed_lines : list string := split_lines output.

(** ** Reading the output back *)

(** The lines under a section heading: those after the heading and its
    rule of dashes, up to the next empty line. *)
Fixpoint after_title (title : string) (ls : list string) : list string :=
  match ls with
  | [] => []
  | l :: r => if String.eqb l title then r else after_title title r
  end.

Fixpoint until_blank (ls : list string) : list string :=
  match ls with
  | [] => []
  | l :: r => if String.eqb l EmptyString then [] else l :: until_blank r
  end.

Definition section_lines (title : string) : list string :=
  until_blank (tl (after_title title printed_lines)).

Definition fg_section : list string := section_lines "FOREGROUND COLORS:".
Definition bg_section : list string := section_lines "BACKGROUND COLORS:".
Definition comb_section : list string :=
  section_lines "COMBINATIONS (Foreground + Background):".

(** How often character [c] occurs in [s]. *)
Fixpoint count_char (c : ascii) (s : string) : nat :=
  match s with
  | EmptyString => 0
  | String d r => (if Ascii.eqb c d then 1 else 0) + count_char c r
  end.

(** [s.endswith(suffix)] *)
Definition endswith (s suffix : string) : bool :=
  String.eqb
    (substring (String.length s - String.length suffix) (String.length suffix) s)
    suffix
  && (String.length suffix <=? String.length s)%nat.

(** [int(s)] on a string of decimal digits; [None] stands for the
    [ValueError] on anything else. *)
Definition digit_of (c : ascii) : option nat :=
  let n := nat_of_ascii c in
  if ((48 <=? n) && (n <=? 57))%nat then Some (n - 48) else None.

Fixpoint int_of_str_aux (acc : nat) (s : string) : option nat :=
  match s with
  | EmptyString => Some acc
  | String c r =>
      match digit_of c with
      | Some d => int_of_str_aux (10 * acc + d) r
      | None => None
      end
  end.

Definition int_of_str (s : string) : option nat :=
  match s with
  | EmptyString => None
  | _ => int_of_str_aux 0 s
  end.

(** What a terminal shows of a line: the text outside its escape
    sequences. The escape byte followed by [\[] opens a control sequence,
    which runs through its final byte, the first byte from 64 to 126
    after the bracket; the escape byte followed by any other byte is a
    sequence of those two bytes. *)
Inductive scan : Type := Text | Escape | Csi.

Definition is_final (c : ascii) : bool :=
  ((64 <=? nat_of_ascii c) && (nat_of_ascii c <=? 126))%nat.

Fixpoint visible_aux (st : scan) (s : string) : string :=
  match s with
  | EmptyString => EmptyString
  | String c r =>
      match st with
      | Text =>
          if Ascii.eqb c ESC then visible_aux Escape r
          else String c (visible_aux Text r)
      | Escape =>
          if Ascii.eqb c "[" then visible_aux Csi r else visible_aux Text r
      | Csi =>
          if is_final c then visible_aux Text r else visible_aux Csi r
      end
  end.

Definition visible (s : string) : string := visible_aux Text s.

(** ** The reference tables, as the specification words them *)

Module Reference.

Definition standard_names : list string :=
  [ "Black"; "Red"; "Green"; "Yellow"; "Blue"; "Magenta"; "Cyan"; "White" ].

(** The eight standard names, then their Bright variants in the same
    relative order. *)
Definition declared_order : list string :=
  standard_names ++ map (append "Bright ") standard_names.

(** Foreground 30-37 and 90-97, background 40-47 and 100-107. *)
Definition fg_reference : list (string * nat) :=
  combine declared_order (seq 30 8 ++ seq 90 8).

Definition bg_reference : list (string * nat) :=
  combine declared_order (seq 40 8 ++ seq 100 8).

(** Background codes that take bright-white text. *)
Definition contrast_codes : list nat := [40; 41; 42; 43; 44; 45; 46; 100].

Definition declared_combinations : list (string * string) :=
  [ ("Bright White", "Blue"); ("Yellow", "Bright Black");
    ("Bright Cyan", "Magenta"); ("Bright Red", "Bright Yellow");
    ("Black", "Bright White") ].

(** The code ranges of the data-model invariant. *)
Definition fg_range (n : nat) : Prop := 30 <= n <= 37 \/ 90 <= n <= 97.
Definition bg_range (n : nat) : Prop := 40 <= n <= 47 \/ 100 <= n <= 107.

End Reference.
Import Reference.

(** A numeric string: what [int] reads and [str] writes back unchanged. *)
Definition numeric_in (range : nat -> Prop) (code : string) : Prop :=
  exists n, int_of_str code = Some n /\ str_of_nat n = code /\ range n.

(** The entries the three loops print. *)
Inductive entry : Type :=
| Fg (name code : string)
| Bg (name code : string)
| Comb (fg_name bg_name fg_code bg_code : string).

Definition printed (e : entry) : Prop :=
  match e with
  | Fg name code => In (name, code) fg_colors
  | Bg name code => In (name, code) bg_colors
  | Comb fg_name bg_name fg_code bg_code =>
      In (fg_name, bg_name) combinations
      /\ dict_get fg_colors fg_name = Some fg_code
      /\ dict_get bg_colors bg_name = Some bg_code
  end.

Definition entry_line (e : entry) : string :=
  match e with
  | Fg name code => fg_line name code
  | Bg name code => bg_line name code
  | Comb fg_name bg_name fg_code bg_code =>
      comb_line fg_name bg_name fg_code bg_code
  end.

(** The styled column of an entry's line. *)
Definition entry_styled (e : entry) : string :=
  match e with
  | Fg name code => fg_colored_text name code
  | Bg name code => colored_bg name code
  | Comb fg_name bg_name fg_code bg_code =>
      comb_colored_text fg_name bg_name fg_code bg_code
  end.

(** The documentation column before padding, and its width. *)
Definition entry_doc (e : entry) : string :=
  match e with
  | Fg _ code | Bg _ code => ansi_seq code
  | Comb _ _ fg_code bg_code => comb_ansi_seq fg_code bg_code
  end.

Definition entry_doc_width (e : entry) : nat :=
  match e with
  | Fg _ _ | Bg _ _ => 10
  | Comb _ _ _ _ => 15
  end.

(** The pattern the specification gives for the documentation text. *)
Definition doc_pattern (e : entry) : list ascii :=
  match e with
  | Fg _ code | Bg _ code =>
      ["\"; "0"; "3"; "3"; "["]%char ++ list_ascii_of_string code ++ ["m"%char]
  | Comb _ _ fg_code bg_code =>
      ["\"; "0"; "3"; "3"; "["]%char ++ list_ascii_of_string fg_code
        ++ [";"%char] ++ list_ascii_of_string bg_code ++ ["m"%char]
  end.

(** Concatenation of the pieces a loop writes. *)
Definition flat (ls : list string) : string := fold_right append EmptyString ls.

(** A computation that leaves both tables of the frame as they were. *)
Definition stable {A} (m : M A) : Prop :=
  forall f, f_fg_colors (snd (m f)) = f_fg_colors f
            /\ f_bg_colors (snd (m f)) = f_bg_colors f.

(** A computation that, on tables [fg] and [bg], returns normally having
    appended [text] to standard output and changed nothing else. *)
Definition writes (fg bg : dict) (m : M unit) (text : string) : Prop :=
  forall out, m (mkFrame fg bg out) = (Ok tt, mkFrame fg bg (out ++ text)).

(** What one turn of the combination loop writes when both names are
    keys of the tables. *)
Definition comb_text (fg bg : dict) (x : string * string) : string :=
  let '(fg_name, bg_name) := x in
  match dict_get fg fg_name, dict_get bg bg_name with
  | Some fg_code, Some bg_code =>
      comb_line fg_name bg_name fg_code bg_code ++ chr NL
  | _, _ => EmptyString
  end.

(** The text of one call, statement by statement. *)
Definition output_pieces : list string :=
  [ str_mul "=" 80 ++ chr NL;
    "ANSI COLOR CODEMAP" ++ chr NL;
    str_mul "=" 80 ++ chr NL;
    (chr NL ++ "FOREGROUND COLORS:") ++ chr NL;
    str_mul "-" 40 ++ chr NL;
    flat (map (fun '(name, code) => fg_line name code ++ chr NL) fg_colors);
    (chr NL ++ "BACKGROUND COLORS:") ++ chr NL;
    str_mul "-" 40 ++ chr NL;
    flat (map (fun '(name, code) => bg_line name code ++ chr NL) bg_colors);
    (chr NL ++ "COMBINATIONS (Foreground + Background):") ++ chr NL;
    str_mul "-" 40 ++ chr NL;
    flat (map (comb_text fg_colors bg_colors) combinations);
    (chr NL ++ "USAGE NOTES:") ++ chr NL;
    str_mul "-" 40 ++ chr NL;
    "1. All ANSI sequences start with \033[ and end with m" ++ chr NL;
    "2. Separate multiple codes with semicolons (e.g., \033[31;44m)" ++ chr NL;
    "3. Reset formatting with \033[0m" ++ chr NL;
    str_mul "=" 80 ++ chr NL ].

(** ** Entries beyond the literals *)

(** A string without the escape byte. *)
Definition plain (s : string) : Prop := occurs ESC s = false.

(** Every character of a string passes a test. *)
Fixpoint all_chars (p : ascii -> bool) (s : string) : bool :=
  match s with
  | EmptyString => true
  | String c r => p c && all_chars p r
  end.

(** A printable character, from the space to the tilde. *)
Definition is_printable (c : ascii) : bool :=
  ((32 <=? nat_of_ascii c) && (nat_of_ascii c <=? 126))%nat.

(** A parameter byte of a control sequence: a digit or one of
    [: ; < = > ?]. *)
Definition is_param (c : ascii) : bool :=
  ((48 <=? nat_of_ascii c) && (nat_of_ascii c <=? 63))%nat.

Definition printable (s : string) : Prop := all_chars is_printable s = true.

(** A code that can stand between [ESC\[] and [m] as the parameters of
    one control sequence. *)
Definition params (code : string) : Prop := all_chars is_param code = true.

Definition entry_plain (e : entry) : Prop :=
  match e with
  | Fg name code | Bg name code => printable name /\ params code
  | Comb fg_name bg_name fg_code bg_code =>
      printable fg_name /\ printable bg_name
      /\ params fg_code /\ params bg_code
  end.

Definition entry_codes_plain (e : entry) : Prop :=
  match e with
  | Fg _ code | Bg _ code => plain code
  | Comb _ _ fg_code bg_code => plain fg_code /\ plain bg_code
  end.

(** The three columns of an entry's line as a terminal shows them. *)
Definition entry_text (e : entry) : string :=
  match e with
  | Fg name code | Bg name code =>
      ljust name 15 ++ " " ++ ljust (ansi_seq code) 10 ++ " Example text"
  | Comb fg_name bg_name fg_code bg_code =>
      comb_label fg_name bg_name ++ " "
        ++ ljust (comb_ansi_seq fg_code bg_code) 15 ++ " Example text"
  end.

(** The control sequence an entry's documentation column stands for, and
    what the line writes before it. *)
Definition entry_seq (e : entry) : string :=
  match e with
  | Fg _ code | Bg _ code => String ESC "[" ++ code ++ "m"
  | Comb _ _ fg_code bg_code =>
      String ESC "[" ++ fg_code ++ ";" ++ bg_code ++ "m"
  end.

Definition entry_lead (e : entry) : string :=
  match e with
  | Bg _ code => String ESC "[" ++ text_color code ++ "m"
  | _ => EmptyString
  end.

(** The readable form of a text: every escape byte written as the four
    characters backslash, 0, 3, 3. *)
Fixpoint escape_repr (s : string) : string :=
  match s with
  | EmptyString => EmptyString
  | String c r =>
      if Ascii.eqb c ESC then "\033" ++ escape_repr r
      else String c (escape_repr r)
  end.

(** What follows the last escape byte of a text, if it has one. *)
Fixpoint after_last_esc (s : string) : option string :=
  match s with
  | EmptyString => None
  | String c r =>
      match after_last_esc r with
      | Some t => Some t
      | None => if Ascii.eqb c ESC then Some r else None
      end
  end.

(** Both names of a pair are keys of their tables. *)
Definition present (fg bg : dict) (x : string * string) : Prop :=
  dict_get fg (fst x) <> None /\ dict_get bg (snd x) <> None.

(** * Lemmas *)

(** ** Strings *)

Lemma append_nil_r (s : string) : s ++ EmptyString = s.
Proof. induction s as [|c s IH]; simpl; [reflexivity | now rewrite IH]. Qed.

Lemma append_assoc (a b c : string) : (a ++ b) ++ c = a ++ b ++ c.
Proof. induction a as [|x a IH]; simpl; [reflexivity | now rewrite IH]. Qed.

Lemma length_append (a b : string) :
  String.length (a ++ b) = String.length a + String.length b.
Proof. induction a as [|x a IH]; simpl; [reflexivity | now rewrite IH]. Qed.

Lemma length_str_mul (s : string) (n : nat) :
  String.length (str_mul s n) = n * String.length s.
Proof.
  induction n as [|n IH]; simpl; [reflexivity|].
  rewrite length_append, IH. reflexivity.
Qed.

Lemma prefix_append (a b : string) : prefix a (a ++ b) = true.
Proof.
  induction a as [|x a IH]; simpl.
  - destruct b; reflexivity.
  - destruct (ascii_dec x x) as [_|ne]; [exact IH | now elim ne].
Qed.

Lemma ljust_length (s : string) (width : nat) :
  String.length (ljust s width) = Nat.max (String.length s) width.
Proof.
  unfold ljust. rewrite length_append, length_str_mul. simpl. lia.
Qed.

Lemma ljust_prefix (s : string) (width : nat) : prefix s (ljust s width) = true.
Proof. apply prefix_append. Qed.

Lemma ljust_long (s : string) (width : nat) :
  width <= String.length s -> ljust s width = s.
Proof.
  intros H. unfold ljust.
  replace (width - String.length s) with 0 by lia.
  apply append_nil_r.
Qed.

Lemma str_in_In (x : string) (xs : list string) :
  str_in x xs = true <-> In x xs.
Proof.
  unfold str_in. rewrite existsb_exists. split.
  - intros [y [Hy Heq]]. apply String.eqb_eq in Heq. now subst.
  - intros H. exists x. split; [exact H | apply String.eqb_refl].
Qed.

(** ** The format strings, piece by piece *)

Lemma fg_line_pieces (name code : string) :
  fg_line name code =
  sgr code ++ ljust name 15 ++ reset ++ " "
    ++ ljust ("\033[" ++ code ++ "m") 10 ++ " Example text".
Proof.
  unfold fg_line, fg_colored_text, reset, ansi_seq.
  now rewrite !append_assoc.
Qed.

Lemma bg_line_pieces (name code : string) :
  bg_line name code =
  sgr (text_color code) ++ sgr code ++ ljust name 15 ++ reset ++ " "
    ++ ljust ("\033[" ++ code ++ "m") 10 ++ " Example text".
Proof.
  unfold bg_line, colored_bg, reset, ansi_seq.
  now rewrite !append_assoc.
Qed.

Lemma comb_line_pieces (fg_name bg_name fg_code bg_code : string) :
  comb_line fg_name bg_name fg_code bg_code =
  sgr (fg_code ++ ";" ++ bg_code) ++ fg_name ++ " on " ++ ljust bg_name 25
    ++ reset ++ " "
    ++ ljust ("\033[" ++ fg_code ++ ";" ++ bg_code ++ "m") 15 ++ " Example text".
Proof.
  unfold comb_line, comb_colored_text, comb_label, comb_ansi_seq, sgr, reset.
  now rewrite !append_assoc.
Qed.

Lemma text_color_cases (code : string) :
  (In code dark_backgrounds -> text_color code = "97")
  /\ (~ In code dark_backgrounds -> text_color code = "30").
Proof.
  unfold text_color. split; intros H.
  - apply str_in_In in H. now rewrite H.
  - destruct (str_in code dark_backgrounds) eqn:E; [|reflexivity].
    apply str_in_In in E. contradiction.
Qed.

Lemma comb_label_length (fg_name bg_name : string) :
  String.length (comb_label fg_name bg_name) =
  String.length fg_name + 4 + Nat.max (String.length bg_name) 25.
Proof.
  unfold comb_label. rewrite !length_append, ljust_length. simpl. lia.
Qed.

(** ** The monad: what is written, what is left alone *)

Section Frames.

Variables fg bg : dict.

Lemma writes_print (s : string) : writes fg bg (print s) (s ++ chr NL).
Proof. intros out. reflexivity. Qed.

Lemma writes_ret : writes fg bg (ret tt) EmptyString.
Proof. intros out. unfold ret. now rewrite append_nil_r. Qed.

Lemma writes_seq (m k : M unit) (t1 t2 : string) :
  writes fg bg m t1 -> writes fg bg k t2 -> writes fg bg (m ;;; k) (t1 ++ t2).
Proof.
  intros Hm Hk out. unfold bind. rewrite Hm, Hk.
  now rewrite append_assoc.
Qed.

Lemma writes_for_each {A} (xs : list A) (step : A -> M unit)
      (text : A -> string) :
  (forall x, In x xs -> writes fg bg (step x) (text x)) ->
  writes fg bg (for_each xs step) (flat (map text xs)).
Proof.
  induction xs as [|x xs IH]; intros H; simpl.
  - apply writes_ret.
  - apply writes_seq.
    + apply H. now left.
    + apply IH. intros y Hy. apply H. now right.
Qed.

Lemma writes_fg_loop :
  writes fg bg fg_loop
         (flat (map (fun '(name, code) => fg_line name code ++ chr NL) fg)).
Proof.
  intros out. unfold fg_loop, bind, read_fg. simpl.
  apply writes_for_each. intros [name code] _. apply writes_print.
Qed.

Lemma writes_bg_loop :
  writes fg bg bg_loop
         (flat (map (fun '(name, code) => bg_line name code ++ chr NL) bg)).
Proof.
  intros out. unfold bg_loop, bind, read_bg. simpl.
  apply writes_for_each. intros [name code] _. apply writes_print.
Qed.

Lemma writes_comb_iteration (fg_name bg_name fg_code bg_code : string) :
  dict_get fg fg_name = Some fg_code ->
  dict_get bg bg_name = Some bg_code ->
  writes fg bg (comb_iteration (fg_name, bg_name))
         (comb_line fg_name bg_name fg_code bg_code ++ chr NL).
Proof.
  intros Hf Hb out.
  unfold comb_iteration, bind, read_fg, read_bg, subscript. simpl.
  rewrite Hf. simpl. rewrite Hb. reflexivity.
Qed.

(** A missing key stops the loop body with [KeyError] before it prints. *)
Lemma comb_iteration_KeyError (fg_name bg_name : string) (out : string) :
  dict_get fg fg_name = None ->
  comb_iteration (fg_name, bg_name) (mkFrame fg bg out)
  = (KeyError fg_name, mkFrame fg bg out).
Proof.
  intros Hf. unfold comb_iteration, bind, read_fg, subscript. simpl.
  now rewrite Hf.
Qed.

End Frames.

Lemma stable_ret {A} (a : A) : stable (ret a).
Proof. intros f. split; reflexivity. Qed.

Lemma stable_print (s : string) : stable (print s).
Proof. intros f. split; reflexivity. Qed.

Lemma stable_read_fg : stable read_fg.
Proof. intros f. split; reflexivity. Qed.

Lemma stable_read_bg : stable read_bg.
Proof. intros f. split; reflexivity. Qed.

Lemma stable_subscript (d : dict) (k : string) : stable (subscript d k).
Proof. intros f. unfold subscript. destruct (dict_get d k); split; reflexivity. Qed.

Lemma stable_bind {A B} (m : M A) (k : A -> M B) :
  stable m -> (forall a, stable (k a)) -> stable (bind m k).
Proof.
  intros Hm Hk f. unfold bind.
  specialize (Hm f). destruct (m f) as [[a|key] f1]; simpl in *.
  - destruct (Hk a f1) as [H1 H2]. destruct Hm as [H3 H4].
    split; congruence.
  - exact Hm.
Qed.

Lemma stable_for_each {A} (xs : list A) (step : A -> M unit) :
  (forall x, stable (step x)) -> stable (for_each xs step).
Proof.
  intros H. induction xs as [|x xs IH]; simpl.
  - apply stable_ret.
  - apply stable_bind; [apply H | intros _; exact IH].
Qed.

Lemma stable_fg_iteration (x : string * string) : stable (fg_iteration x).
Proof. destruct x. apply stable_print. Qed.

Lemma stable_bg_iteration (x : string * string) : stable (bg_iteration x).
Proof. destruct x. apply stable_print. Qed.

Lemma stable_comb_iteration (x : string * string) : stable (comb_iteration x).
Proof.
  destruct x as [fg_name bg_name]. unfold comb_iteration.
  repeat (apply stable_bind;
          [first [apply stable_read_fg | apply stable_read_bg
                 | apply stable_subscript] | intros ?]).
  apply stable_print.
Qed.

Lemma stable_fg_loop : stable fg_loop.
Proof.
  apply stable_bind; [apply stable_read_fg|].
  intros d. apply stable_for_each, stable_fg_iteration.
Qed.

Lemma stable_bg_loop : stable bg_loop.
Proof.
  apply stable_bind; [apply stable_read_bg|].
  intros d. apply stable_for_each, stable_bg_iteration.
Qed.

Lemma stable_comb_loop : stable comb_loop.
Proof. apply stable_for_each, stable_comb_iteration. Qed.

Lemma stable_statements : Forall stable statements.
Proof.
  unfold statements.
  repeat (constructor;
          [first [apply stable_print | apply stable_fg_loop
                 | apply stable_bg_loop | apply stable_comb_loop]|]).
  constructor.
Qed.

Lemma stable_body : stable body.
Proof.
  unfold body. generalize stable_statements.
  induction statements as [|m ms IH]; intros H; simpl.
  - apply stable_ret.
  - inversion H; subst. apply stable_bind; [assumption | intros _; now apply IH].
Qed.

(** ** The whole run *)

Lemma writes_statements (fg bg : dict) (stmts : list (M unit))
      (texts : list string) :
  Forall2 (writes fg bg) stmts texts ->
  writes fg bg (for_each stmts (fun stmt => stmt)) (flat texts).
Proof.
  induction 1 as [|m t ms ts Hm _ IH]; simpl.
  - apply writes_ret.
  - apply writes_seq; assumption.
Qed.

Lemma writes_comb_loop :
  writes fg_colors bg_colors comb_loop
         (flat (map (comb_text fg_colors bg_colors) combinations)).
Proof.
  unfold comb_loop. apply writes_for_each.
  assert (H : Forall (fun x => dict_get fg_colors (fst x) <> None
                               /\ dict_get bg_colors (snd x) <> None)
                     combinations).
  { unfold combinations.
    repeat (constructor; [split; vm_compute; discriminate|]). constructor. }
  rewrite Forall_forall in H.
  intros [f b] Hin. destruct (H _ Hin) as [Hf Hb]. cbn [fst snd] in Hf, Hb.
  unfold comb_text.
  destruct (dict_get fg_colors f) as [fc|] eqn:Ef; [|congruence].
  destruct (dict_get bg_colors b) as [bc|] eqn:Eb; [|congruence].
  now apply writes_comb_iteration.
Qed.

Ltac writes_step :=
  lazymatch goal with
  | |- writes _ _ (print _) _ => exact (writes_print _ _ _)
  | |- writes _ _ fg_loop _ => exact (writes_fg_loop _ _)
  | |- writes _ _ bg_loop _ => exact (writes_bg_loop _ _)
  | |- writes _ _ comb_loop _ => exact writes_comb_loop
  end.

Lemma body_writes_pieces :
  writes fg_colors bg_colors body (flat output_pieces).
Proof.
  unfold body. apply writes_statements.
  unfold statements, output_pieces.
  repeat (constructor; [writes_step|]).
  constructor.
Qed.

Lemma output_flat : output = flat output_pieces.
Proof.
  unfold output, show_ansi_colors, enter.
  now rewrite body_writes_pieces.
Qed.

Lemma body_writes : writes fg_colors bg_colors body output.
Proof. rewrite output_flat. exact body_writes_pieces. Qed.

Lemma show_ansi_colors_appends (out : string) :
  show_ansi_colors out = (Ok tt, out ++ output).
Proof.
  unfold show_ansi_colors, enter. now rewrite body_writes.
Qed.

(** ** The sections of the output *)

Lemma fg_section_lines :
  fg_section = map (fun '(name, code) => fg_line name code) fg_colors.
Proof. vm_compute. reflexivity. Qed.

Lemma bg_section_lines :
  bg_section = map (fun '(name, code) => bg_line name code) bg_colors.
Proof. vm_compute. reflexivity. Qed.

Lemma fg_section_nth (i : nat) (name code : string) :
  nth_error fg_colors i = Some (name, code) ->
  nth_error fg_section i = Some (fg_line name code).
Proof.
  intros H. rewrite fg_section_lines.
  now apply (map_nth_error (fun '(name, code) => fg_line name code)) in H.
Qed.

Lemma bg_section_nth (i : nat) (name code : string) :
  nth_error bg_colors i = Some (name, code) ->
  nth_error bg_section i = Some (bg_line name code).
Proof.
  intros H. rewrite bg_section_lines.
  now apply (map_nth_error (fun '(name, code) => bg_line name code)) in H.
Qed.

Lemma comb_section_lines :
  map (fun l => l ++ chr NL) comb_section
  = map (comb_text fg_colors bg_colors) combinations.
Proof. vm_compute. reflexivity. Qed.

Lemma after_title_incl (title : string) (ls : list string) (l : string) :
  In l (after_title title ls) -> In l ls.
Proof.
  induction ls as [|x ls IH]; simpl; [tauto|].
  destruct (String.eqb x title); intros H; [now right | right; now apply IH].
Qed.

Lemma until_blank_incl (ls : list string) (l : string) :
  In l (until_blank ls) -> In l ls.
Proof.
  induction ls as [|x ls IH]; simpl; [tauto|].
  destruct (String.eqb x EmptyString); simpl; [tauto|].
  intros [H|H]; [now left | right; now apply IH].
Qed.

Lemma section_lines_printed (title l : string) :
  In l (section_lines title) -> In l printed_lines.
Proof.
  unfold section_lines. intros H.
  apply until_blank_incl in H.
  apply after_title_incl with (title := title).
  destruct (after_title title printed_lines); simpl in H; [contradiction|].
  now right.
Qed.

Lemma list_ascii_append (a b : string) :
  list_ascii_of_string (a ++ b)
  = (list_ascii_of_string a ++ list_ascii_of_string b)%list.
Proof. induction a as [|c a IH]; simpl; [reflexivity | now rewrite IH]. Qed.

(** Checking a closed property of every entry of a literal table. *)
Ltac by_table :=
  repeat (constructor; [vm_compute; repeat split; reflexivity|]); constructor.

Lemma fg_entries_plain :
  Forall (fun x =>
            occurs ESC (ljust (ansi_seq (snd x)) 10) = false
            /\ String.length (ljust (fst x) 15) = 15
            /\ String.length (ljust (ansi_seq (snd x)) 10) = 10
            /\ endswith (fg_line (fst x) (snd x)) "Example text" = true
            /\ visible (fg_line (fst x) (snd x))
               = ljust (fst x) 15 ++ " " ++ ljust (ansi_seq (snd x)) 10
                   ++ " Example text")
         fg_colors.
Proof. unfold fg_colors. by_table. Qed.

Lemma bg_entries_plain :
  Forall (fun x =>
            occurs ESC (ljust (ansi_seq (snd x)) 10) = false
            /\ prefix (String ESC "[" ++ text_color (snd x) ++ ";" ++ snd x
                          ++ "m")
                      (bg_line (fst x) (snd x)) = false
            /\ count_char ESC (bg_line (fst x) (snd x)) = 3
            /\ count_char ";" (bg_line (fst x) (snd x)) = 0
            /\ visible (bg_line (fst x) (snd x))
               = ljust (fst x) 15 ++ " " ++ ljust (ansi_seq (snd x)) 10
                   ++ " Example text")
         bg_colors.
Proof. unfold bg_colors. by_table. Qed.

(** The codes the combination loop looks up, pair by pair. *)
Lemma comb_lookup (i : nat) (fg_name bg_name : string) :
  nth_error combinations i = Some (fg_name, bg_name) ->
  exists fg_code bg_code,
    dict_get fg_colors fg_name = Some fg_code
    /\ dict_get bg_colors bg_name = Some bg_code
    /\ nth_error comb_section i
       = Some (comb_line fg_name bg_name fg_code bg_code)
    /\ occurs ESC (ljust (comb_ansi_seq fg_code bg_code) 15) = false
    /\ String.length (ljust (comb_ansi_seq fg_code bg_code) 15) = 15
    /\ (String.length bg_name <? 25)%nat = true
    /\ visible (comb_line fg_name bg_name fg_code bg_code)
       = comb_label fg_name bg_name ++ " "
           ++ ljust (comb_ansi_seq fg_code bg_code) 15 ++ " Example text".
Proof.
  intros H.
  assert (Hi : i < List.length combinations).
  { apply nth_error_Some. rewrite H. discriminate. }
  simpl in Hi.
  destruct i as [|[|[|[|[|i]]]]]; try lia; simpl in H;
    injection H as <- <-.
  - exists "97", "44". vm_compute. repeat split; reflexivity.
  - exists "33", "100". vm_compute. repeat split; reflexivity.
  - exists "96", "45". vm_compute. repeat split; reflexivity.
  - exists "91", "103". vm_compute. repeat split; reflexivity.
  - exists "30", "107". vm_compute. repeat split; reflexivity.
Qed.

(** ** Scanning for control sequences *)

Lemma occurs_append (c : ascii) (a b : string) :
  occurs c (a ++ b) = occurs c a || occurs c b.
Proof.
  induction a as [|x a IH]; simpl; [reflexivity|].
  now rewrite IH, orb_assoc.
Qed.

Lemma occurs_spaces (c : ascii) (n : nat) :
  c <> " "%char -> occurs c (str_mul " " n) = false.
Proof.
  intros Hc. induction n as [|n IH]; simpl; [reflexivity|].
  rewrite IH, orb_false_r. now apply Ascii.eqb_neq.
Qed.

Lemma occurs_ljust (c : ascii) (s : string) (width : nat) :
  c <> " "%char -> occurs c (ljust s width) = occurs c s.
Proof.
  intros Hc. unfold ljust.
  now rewrite occurs_append, occurs_spaces, orb_false_r.
Qed.

Lemma ESC_not_space : ESC <> " "%char.
Proof. discriminate. Qed.

Lemma all_chars_append (p : ascii -> bool) (a b : string) :
  all_chars p (a ++ b) = all_chars p a && all_chars p b.
Proof.
  induction a as [|c a IH]; simpl; [reflexivity|].
  now rewrite IH, andb_assoc.
Qed.

Lemma all_chars_spaces (p : ascii -> bool) (n : nat) :
  p " "%char = true -> all_chars p (str_mul " " n) = true.
Proof.
  intros H. induction n as [|n IH]; simpl; [reflexivity|].
  now rewrite H, IH.
Qed.

Lemma is_printable_not_ESC (c : ascii) :
  is_printable c = true -> Ascii.eqb ESC c = false.
Proof.
  intros H. destruct (Ascii.eqb_spec ESC c) as [E|]; [|reflexivity].
  rewrite <- E in H. discriminate H.
Qed.

Lemma is_param_printable (c : ascii) :
  is_param c = true -> is_printable c = true.
Proof.
  unfold is_param, is_printable. intros H.
  apply andb_true_iff in H. destruct H as [H1 H2].
  apply Nat.leb_le in H1. apply Nat.leb_le in H2.
  apply andb_true_iff. split; apply Nat.leb_le; lia.
Qed.

Lemma is_param_not_final (c : ascii) :
  is_param c = true -> is_final c = false.
Proof.
  unfold is_param, is_final. intros H.
  apply andb_true_iff in H. destruct H as [H1 H2].
  apply Nat.leb_le in H2.
  apply andb_false_iff. left. apply Nat.leb_gt. lia.
Qed.

Lemma printable_plain (s : string) : printable s -> plain s.
Proof.
  unfold printable, plain.
  induction s as [|c s IH]; intros H; [reflexivity|].
  cbn [all_chars occurs] in H |- *.
  apply andb_true_iff in H. destruct H as [Hc Hs].
  now rewrite (is_printable_not_ESC c Hc), (IH Hs).
Qed.

Lemma params_printable (s : string) : params s -> printable s.
Proof.
  unfold params, printable.
  induction s as [|c s IH]; intros H; [reflexivity|].
  cbn [all_chars] in H |- *.
  apply andb_true_iff in H. destruct H as [Hc Hs].
  now rewrite (is_param_printable c Hc), (IH Hs).
Qed.

Lemma params_plain (s : string) : params s -> plain s.
Proof. intros H. now apply printable_plain, params_printable. Qed.

Lemma visible_aux_text (a b : string) :
  occurs ESC a = false ->
  visible_aux Text (a ++ b) = a ++ visible_aux Text b.
Proof.
  induction a as [|c a IH]; intros H; [reflexivity|].
  cbn [occurs append visible_aux] in H |- *.
  apply orb_false_iff in H. destruct H as [Hc Ha].
  rewrite Ascii.eqb_sym in Hc. rewrite Hc. now rewrite IH.
Qed.

Lemma visible_aux_skip (a b : string) :
  params a ->
  visible_aux Csi (a ++ String "m" b) = visible_aux Text b.
Proof.
  unfold params.
  induction a as [|c a IH]; intros H; [reflexivity|].
  cbn [all_chars append visible_aux] in H |- *.
  apply andb_true_iff in H. destruct H as [Hc Ha].
  rewrite (is_param_not_final c Hc). now apply IH.
Qed.

Lemma visible_plain (a : string) :
  occurs ESC a = false -> visible a = a.
Proof.
  intros H. unfold visible.
  rewrite <- (append_nil_r a) at 1.
  rewrite visible_aux_text by exact H. simpl. apply append_nil_r.
Qed.

Lemma sgr_append (code rest : string) :
  sgr code ++ rest = String ESC (String "[" (code ++ String "m" rest)).
Proof.
  unfold sgr, chr. simpl. now rewrite append_assoc.
Qed.

Lemma visible_sgr (code rest : string) :
  params code ->
  visible_aux Text (sgr code ++ rest) = visible_aux Text rest.
Proof.
  intros H. rewrite sgr_append.
  change (visible_aux Text (String ESC (String "[" (code ++ String "m" rest))))
    with (visible_aux Csi (code ++ String "m" rest)).
  now apply visible_aux_skip.
Qed.

Lemma text_color_values (code : string) :
  text_color code = "97" \/ text_color code = "30".
Proof.
  unfold text_color. destruct (str_in code dark_backgrounds); auto.
Qed.

Lemma text_color_params (code : string) : params (text_color code).
Proof. destruct (text_color_values code) as [E|E]; rewrite E; reflexivity. Qed.

Lemma ansi_seq_plain (code : string) (width : nat) :
  plain code -> plain (ljust (ansi_seq code) width).
Proof.
  unfold plain, ansi_seq. intros H.
  rewrite occurs_ljust by exact ESC_not_space.
  rewrite !occurs_append, H. reflexivity.
Qed.

Lemma comb_ansi_seq_plain (fg_code bg_code : string) (width : nat) :
  plain fg_code -> plain bg_code ->
  plain (ljust (comb_ansi_seq fg_code bg_code) width).
Proof.
  unfold plain, comb_ansi_seq. intros Hf Hb.
  rewrite occurs_ljust by exact ESC_not_space.
  rewrite !occurs_append, Hf, Hb. reflexivity.
Qed.

(** The third column and what stands before it hold no escape byte. *)
Lemma tail_plain (doc : string) :
  plain doc -> plain (" " ++ doc ++ " Example text").
Proof.
  unfold plain. intros H. rewrite !occurs_append, H. reflexivity.
Qed.

Lemma visible_reset_tail (doc : string) :
  plain doc ->
  visible_aux Text (reset ++ " " ++ doc ++ " Example text")
  = " " ++ doc ++ " Example text".
Proof.
  intros H. change reset with (sgr "0").
  rewrite visible_sgr by reflexivity.
  apply (visible_plain _ (tail_plain doc H)).
Qed.

Lemma ljust_plain (name : string) (width : nat) :
  printable name -> occurs ESC (ljust name width) = false.
Proof.
  intros H. rewrite occurs_ljust by exact ESC_not_space.
  exact (printable_plain name H).
Qed.

Lemma visible_entry_line (e : entry) :
  entry_plain e -> visible (entry_line e) = entry_text e.
Proof.
  destruct e as [name code|name code|fg_name bg_name fg_code bg_code];
    cbn [entry_plain entry_line entry_text]; unfold visible.
  - intros [Hn Hc].
    rewrite fg_line_pieces, (visible_sgr _ _ Hc). fold (ansi_seq code).
    rewrite (visible_aux_text _ _ (ljust_plain name 15 Hn)).
    now rewrite (visible_reset_tail _
                   (ansi_seq_plain code 10 (params_plain code Hc))).
  - intros [Hn Hc].
    rewrite bg_line_pieces, (visible_sgr _ _ (text_color_params code)).
    rewrite (visible_sgr _ _ Hc). fold (ansi_seq code).
    rewrite (visible_aux_text _ _ (ljust_plain name 15 Hn)).
    now rewrite (visible_reset_tail _
                   (ansi_seq_plain code 10 (params_plain code Hc))).
  - intros [Hf [Hb [Hfc Hbc]]].
    rewrite comb_line_pieces.
    rewrite visible_sgr
      by (unfold params in *; rewrite !all_chars_append, Hfc, Hbc;
          reflexivity).
    replace (fg_name ++ " on " ++ ljust bg_name 25 ++ reset ++ " "
               ++ ljust ("\033[" ++ fg_code ++ ";" ++ bg_code ++ "m") 15
               ++ " Example text")
      with (comb_label fg_name bg_name ++ reset ++ " "
              ++ ljust (comb_ansi_seq fg_code bg_code) 15 ++ " Example text")
      by (unfold comb_label, comb_ansi_seq; now rewrite !append_assoc).
    rewrite visible_aux_text.
    + now rewrite (visible_reset_tail _
                     (comb_ansi_seq_plain fg_code bg_code 15
                        (params_plain _ Hfc) (params_plain _ Hbc))).
    + unfold comb_label.
      rewrite !occurs_append, (ljust_plain bg_name 25 Hb).
      rewrite (printable_plain fg_name Hf). reflexivity.
Qed.



Lemma escape_repr_plain (s : string) :
  occurs ESC s = false -> escape_repr s = s.
Proof.
  induction s as [|c s IH]; intros H; [reflexivity|].
  cbn [occurs escape_repr] in H |- *.
  apply orb_false_iff in H. destruct H as [Hc Hs].
  rewrite Ascii.eqb_sym in Hc. rewrite Hc. now rewrite IH.
Qed.

Lemma escape_repr_sgr (code : string) :
  plain code -> escape_repr (sgr code) = "\033[" ++ code ++ "m".
Proof.
  intros H. unfold sgr, chr.
  change (escape_repr (String ESC EmptyString ++ "[" ++ code ++ "m"))
    with ("\033" ++ String "[" (escape_repr (code ++ "m"))).
  rewrite escape_repr_plain; [reflexivity|].
  unfold plain in H. now rewrite occurs_append, H.
Qed.

Lemma prefix_of_eq (p rest s : string) :
  s = p ++ rest -> prefix p s = true.
Proof. intros ->. apply prefix_append. Qed.

Lemma escape_repr_csi (x : string) :
  plain x -> escape_repr (String ESC "[" ++ x) = "\033[" ++ x.
Proof.
  intros H.
  change (escape_repr (String ESC "[" ++ x))
    with ("\033" ++ String "[" (escape_repr x)).
  now rewrite (escape_repr_plain x H).
Qed.



(** ** Lookup against iteration *)

Lemma dict_get_In (d : dict) (k v : string) :
  dict_get d k = Some v -> In (k, v) d.
Proof.
  induction d as [|[k' v'] d IH]; simpl; [discriminate|].
  destruct (String.eqb_spec k k') as [->|ne]; intros H.
  - injection H as ->. now left.
  - right. now apply IH.
Qed.

Lemma In_dict_get (d : dict) (k v : string) :
  NoDup (keys d) -> In (k, v) d -> dict_get d k = Some v.
Proof.
  induction d as [|[k' v'] d IH]; simpl; [tauto|].
  intros Hnd [H|H].
  - injection H as -> ->. now rewrite String.eqb_refl.
  - inversion Hnd as [|? ? Hnotin Hnd']; subst.
    destruct (String.eqb_spec k k') as [->|ne]; [|now apply IH].
    exfalso. apply Hnotin. unfold keys.
    now apply (in_map fst) in H.
Qed.

(** Checking that a literal list of strings has no repetition. *)
Ltac nodup_strings :=
  repeat (constructor;
          [simpl; intros H;
           repeat (destruct H as [H|H]; [discriminate H|]); exact H|]);
  constructor.

Lemma fg_colors_keys_NoDup : NoDup (keys fg_colors).
Proof. unfold keys, fg_colors. cbn [map fst]. nodup_strings. Qed.

Lemma bg_colors_keys_NoDup : NoDup (keys bg_colors).
Proof. unfold keys, bg_colors. cbn [map fst]. nodup_strings. Qed.

Lemma printed_entry_plain (e : entry) : printed e -> entry_plain e.
Proof.
  assert (Hf : Forall (fun x => printable (fst x) /\ params (snd x)) fg_colors)
    by (unfold fg_colors; by_table).
  assert (Hb : Forall (fun x => printable (fst x) /\ params (snd x)) bg_colors)
    by (unfold bg_colors; by_table).
  assert (Hc : Forall (fun x => printable (fst x) /\ printable (snd x))
                     combinations)
    by (unfold combinations; by_table).
  rewrite Forall_forall in Hf, Hb, Hc.
  destruct e as [name code|name code|fg_name bg_name fg_code bg_code];
    cbn [printed entry_plain].
  - intros H. exact (Hf _ H).
  - intros H. exact (Hb _ H).
  - intros [Hin [Hfg Hbg]].
    destruct (Hc _ Hin) as [H1 H2].
    apply dict_get_In in Hfg. apply dict_get_In in Hbg.
    destruct (Hf _ Hfg) as [_ H3]. destruct (Hb _ Hbg) as [_ H4].
    auto.
Qed.

(** ** The combination loop on any tables *)

Section AnyTables.

Variables fg bg : dict.

Lemma comb_iteration_KeyError_bg (fg_name bg_name fg_code out : string) :
  dict_get fg fg_name = Some fg_code ->
  dict_get bg bg_name = None ->
  comb_iteration (fg_name, bg_name) (mkFrame fg bg out)
  = (KeyError bg_name, mkFrame fg bg out).
Proof.
  intros Hf Hb. unfold comb_iteration, bind, read_fg, read_bg, subscript.
  simpl. rewrite Hf. simpl. now rewrite Hb.
Qed.

Lemma comb_iteration_present (x : string * string) :
  present fg bg x ->
  writes fg bg (comb_iteration x) (comb_text fg bg x).
Proof.
  destruct x as [f b]. unfold present, comb_text. cbn [fst snd].
  intros [Hf Hb].
  destruct (dict_get fg f) as [fc|] eqn:Ef; [|now elim Hf].
  destruct (dict_get bg b) as [bc|] eqn:Eb; [|now elim Hb].
  now apply writes_comb_iteration.
Qed.

Lemma comb_iteration_absent (f b out : string) :
  ~ present fg bg (f, b) ->
  comb_iteration (f, b) (mkFrame fg bg out)
  = (KeyError (match dict_get fg f with None => f | Some _ => b end),
     mkFrame fg bg out).
Proof.
  unfold present. cbn [fst snd]. intros H.
  destruct (dict_get fg f) as [fc|] eqn:Ef.
  - destruct (dict_get bg b) as [bc|] eqn:Eb.
    + exfalso. apply H. split; discriminate.
    + now apply comb_iteration_KeyError_bg with (fg_code := fc).
  - now apply comb_iteration_KeyError.
Qed.

Lemma present_dec (x : string * string) :
  {present fg bg x} + {~ present fg bg x}.
Proof.
  unfold present.
  destruct (dict_get fg (fst x)); [|right; intros [H _]; now apply H].
  destruct (dict_get bg (snd x)); [|right; intros [_ H]; now apply H].
  left. split; discriminate.
Qed.

Lemma for_each_comb_present (xs : list (string * string)) :
  Forall (present fg bg) xs ->
  writes fg bg (for_each xs comb_iteration) (flat (map (comb_text fg bg) xs)).
Proof.
  intros H. apply writes_for_each.
  rewrite Forall_forall in H.
  intros x Hx. apply comb_iteration_present, H, Hx.
Qed.

Lemma for_each_comb_absent (xs ys : list (string * string)) (f b out : string) :
  Forall (present fg bg) xs ->
  ~ present fg bg (f, b) ->
  for_each (xs ++ (f, b) :: ys) comb_iteration (mkFrame fg bg out)
  = (KeyError (match dict_get fg f with None => f | Some _ => b end),
     mkFrame fg bg (out ++ flat (map (comb_text fg bg) xs))).
Proof.
  intros Hxs Hx. revert out.
  induction Hxs as [|x xs Hp _ IH]; intros out.
  - cbn [app for_each map flat fold_right]. unfold bind.
    rewrite (comb_iteration_absent f b out Hx).
    now rewrite append_nil_r.
  - cbn [app for_each map flat fold_right]. unfold bind.
    rewrite (comb_iteration_present x Hp out).
    rewrite IH. now rewrite append_assoc.
Qed.

End AnyTables.

Lemma prefix_split (p t : string) :
  prefix p t = true -> exists rest, t = p ++ rest.
Proof.
  revert t. induction p as [|c p IH]; intros t H.
  - now exists t.
  - destruct t as [|d t]; [discriminate H|].
    cbn [prefix] in H.
    destruct (ascii_dec c d) as [->|ne]; [|discriminate H].
    destruct (IH t H) as [rest ->]. now exists rest.
Qed.

(** ** The lines, byte by byte *)

Lemma fg_line_bytes (name code : string) :
  fg_line name code =
  String ESC "[" ++ code ++ "m" ++ ljust name 15 ++ String ESC "[0m" ++ " "
    ++ ljust ("\033[" ++ code ++ "m") 10 ++ " Example text".
Proof.
  unfold fg_line, fg_colored_text, sgr, ansi_seq, chr.
  rewrite !append_assoc. reflexivity.
Qed.

Lemma bg_line_bytes (name code : string) :
  bg_line name code =
  String ESC "[" ++ text_color code ++ "m" ++ String ESC "[" ++ code ++ "m"
    ++ ljust name 15 ++ String ESC "[0m" ++ " "
    ++ ljust ("\033[" ++ code ++ "m") 10 ++ " Example text".
Proof.
  unfold bg_line, colored_bg, sgr, ansi_seq, chr.
  rewrite !append_assoc. reflexivity.
Qed.

Lemma comb_line_bytes (fg_name bg_name fg_code bg_code : string) :
  comb_line fg_name bg_name fg_code bg_code =
  String ESC "[" ++ fg_code ++ ";" ++ bg_code ++ "m"
    ++ fg_name ++ " on " ++ ljust bg_name 25 ++ String ESC "[0m" ++ " "
    ++ ljust ("\033[" ++ fg_code ++ ";" ++ bg_code ++ "m") 15
    ++ " Example text".
Proof.
  unfold comb_line, comb_colored_text, comb_label, comb_ansi_seq, chr.
  rewrite !append_assoc. reflexivity.
Qed.

Lemma text_color_97_iff (code : string) :
  text_color code = "97" <-> In code dark_backgrounds.
Proof.
  unfold text_color. rewrite <- str_in_In.
  destruct (str_in code dark_backgrounds); split; intros H;
    first [reflexivity | discriminate H].
Qed.

(** ** The reference tables against the literals *)

Lemma fg_reference_lookup (name : string) (n : nat) :
  In (name, n) fg_reference ->
  dict_get fg_colors name = Some (str_of_nat n).
Proof.
  intros H. apply In_dict_get; [exact fg_colors_keys_NoDup|].
  apply (in_map (fun x => (fst x, str_of_nat (snd x)))) in H.
  exact H.
Qed.

Lemma bg_reference_lookup (name : string) (n : nat) :
  In (name, n) bg_reference ->
  dict_get bg_colors name = Some (str_of_nat n).
Proof.
  intros H. apply In_dict_get; [exact bg_colors_keys_NoDup|].
  apply (in_map (fun x => (fst x, str_of_nat (snd x)))) in H.
  exact H.
Qed.

Lemma combinations_in_reference :
  Forall (fun x => (exists n, In (fst x, n) fg_reference)
                   /\ (exists m, In (snd x, m) bg_reference))
         declared_combinations.
Proof.
  assert (T : forallb (fun x => existsb (String.eqb (fst x))
                                        (map fst fg_reference)
                                && existsb (String.eqb (snd x))
                                           (map fst bg_reference))
                      declared_combinations = true)
    by (vm_compute; reflexivity).
  rewrite forallb_forall in T. apply Forall_forall. intros x Hx.
  specialize (T x Hx). apply andb_true_iff in T. destruct T as [T1 T2].
  apply existsb_exists in T1. apply existsb_exists in T2.
  destruct T1 as [k1 [H1 E1]]. destruct T2 as [k2 [H2 E2]].
  apply String.eqb_eq in E1. apply String.eqb_eq in E2. subst k1 k2.
  apply in_map_iff in H1. apply in_map_iff in H2.
  destruct H1 as [[a n] [Ea Ha]]. destruct H2 as [[b m] [Eb Hb]].
  cbn [fst] in Ea, Eb. subst a b.
  split; [now exists n | now exists m].
Qed.

(** * The claims *)

(** C1. Every line of the FOREGROUND COLORS and BACKGROUND COLORS sections
    prints the code of the reference table for its name: the tables of the
    source are the reference tables written in decimal (foreground 30-37
    and 90-97, background 40-47 and 100-107, in the declared order of the
    names), and the sixteen lines of either section carry exactly those
    codes, both in the control sequence and in the documentation column. *)
Theorem reference_codes_printed :
  map (fun '(name, n) => (name, str_of_nat n)) fg_reference = fg_colors
  /\ map (fun '(name, n) => (name, str_of_nat n)) bg_reference = bg_colors
  /\ fg_section
     = map (fun '(name, n) =>
              sgr (str_of_nat n) ++ ljust name 15 ++ reset ++ " "
                ++ ljust ("\033[" ++ str_of_nat n ++ "m") 10 ++ " Example text")
           fg_reference
  /\ bg_section
     = map (fun '(name, n) =>
              sgr (text_color (str_of_nat n)) ++ sgr (str_of_nat n)
                ++ ljust name 15 ++ reset ++ " "
                ++ ljust ("\033[" ++ str_of_nat n ++ "m") 10 ++ " Example text")
           bg_reference
  /\ List.length fg_section = 16
  /\ List.length bg_section = 16.
Proof. repeat split; vm_compute; reflexivity. Qed.

(** C2. The contrast text code of a background line is 97 exactly when the
    background code is one of 40, 41, 42, 43, 44, 45, 46, 100 and 30 for
    any other code, a membership test on the code string; and the printed
    line of every background entry opens with the bytes 27, [, 9, 7, m
    when its code is in that set and with 27, [, 3, 0, m when it is not,
    followed by the sequence of the background code. *)
Theorem contrast_rule (code : string) :
  dark_backgrounds = map str_of_nat contrast_codes
  /\ (In code (map str_of_nat contrast_codes) -> text_color code = "97")
  /\ (~ In code (map str_of_nat contrast_codes) -> text_color code = "30")
  /\ (forall i name,
         nth_error bg_colors i = Some (name, code) ->
         (In code (map str_of_nat contrast_codes) ->
          nth_error bg_section i
          = Some (String ESC "[97m" ++ String ESC "[" ++ code ++ "m"
                    ++ ljust name 15 ++ String ESC "[0m" ++ " "
                    ++ ljust ("\033[" ++ code ++ "m") 10 ++ " Example text"))
         /\ (~ In code (map str_of_nat contrast_codes) ->
             nth_error bg_section i
             = Some (String ESC "[30m" ++ String ESC "[" ++ code ++ "m"
                       ++ ljust name 15 ++ String ESC "[0m" ++ " "
                       ++ ljust ("\033[" ++ code ++ "m") 10
                       ++ " Example text"))).
Proof.
  assert (E : dark_backgrounds = map str_of_nat contrast_codes) by reflexivity.
  split; [exact E|]. rewrite <- E.
  destruct (text_color_cases code) as [Hin Hout].
  split; [exact Hin|]. split; [exact Hout|].
  intros i name H.
  pose proof (bg_section_nth i name code H) as Hl.
  rewrite bg_line_bytes in Hl.
  split; intros Hc.
  - rewrite (Hin Hc) in Hl. exact Hl.
  - rewrite (Hout Hc) in Hl. exact Hl.
Qed.

Lemma contrast_rule_witness :
  text_color "100" = "97"
  /\ text_color "47" = "30"
  /\ nth_error bg_section 7
     = Some (String ESC "[30m" ++ String ESC "[47m"
               ++ "White          " ++ String ESC "[0m" ++ " "
               ++ "\033[47m  " ++ " Example text")
  /\ nth_error bg_section 8
     = Some (String ESC "[97m" ++ String ESC "[100m"
               ++ "Bright Black   " ++ String ESC "[0m" ++ " "
               ++ "\033[100m " ++ " Example text").
Proof.
  destruct (contrast_rule "100") as [_ [H100 [_ Hdark]]].
  destruct (contrast_rule "47") as [_ [_ [H47 Hlight]]].
  assert (I100 : In "100" (map str_of_nat contrast_codes))
    by (simpl; tauto).
  assert (N47 : ~ In "47" (map str_of_nat contrast_codes)).
  { simpl. intros H.
    repeat (destruct H as [H|H]; [discriminate H|]). exact H. }
  split; [exact (H100 I100)|]. split; [exact (H47 N47)|]. split.
  - exact (proj2 (Hlight 7 "White" eq_refl) N47).
  - exact (proj1 (Hdark 8 "Bright Black" eq_refl) I100).
Defined.

(** C3. Both sections print their sixteen entries in the declared order:
    the keys of either table, in iteration order, are Black, Red, Green,
    Yellow, Blue, Magenta, Cyan, White and then the Bright variants in the
    same order; the lines of a section are the loop body applied to the
    table in that order; and the name column a terminal shows on the i-th
    line is the i-th declared name. *)
Theorem sections_follow_declared_order :
  keys fg_colors = declared_order
  /\ keys bg_colors = declared_order
  /\ fg_section = map (fun '(name, code) => fg_line name code) fg_colors
  /\ bg_section = map (fun '(name, code) => bg_line name code) bg_colors
  /\ map (fun l => substring 0 15 (visible l)) fg_section
     = map (fun name => ljust name 15) declared_order
  /\ map (fun l => substring 0 15 (visible l)) bg_section
     = map (fun name => ljust name 15) declared_order.
Proof.
  split; [reflexivity|]. split; [reflexivity|].
  split; [exact fg_section_lines|]. split; [exact bg_section_lines|].
  split; vm_compute; reflexivity.
Qed.

(** C4. The COMBINATIONS section has exactly five lines, in the order
    (Bright White, Blue), (Yellow, Bright Black), (Bright Cyan, Magenta),
    (Bright Red, Bright Yellow), (Black, Bright White), and the call
    returns normally; every name of a pair stands in the reference table
    of its kind, and with [n] the reference foreground code of the first
    name and [m] the reference background code of the second, the tables
    map the names to those codes and the i-th line opens with the one
    sequence 27, [, n, ;, m, m before the label. *)
Theorem combinations_section (i : nat) (fg_name bg_name : string) (n m : nat) :
  nth_error declared_combinations i = Some (fg_name, bg_name) ->
  In (fg_name, n) fg_reference ->
  In (bg_name, m) bg_reference ->
  combinations = declared_combinations
  /\ List.length comb_section = 5
  /\ fst (show_ansi_colors EmptyString) = Ok tt
  /\ Forall (fun x => (exists n', In (fst x, n') fg_reference)
                      /\ (exists m', In (snd x, m') bg_reference))
            declared_combinations
  /\ dict_get fg_colors fg_name = Some (str_of_nat n)
  /\ dict_get bg_colors bg_name = Some (str_of_nat m)
  /\ nth_error comb_section i
     = Some (String ESC "[" ++ str_of_nat n ++ ";" ++ str_of_nat m ++ "m"
               ++ fg_name ++ " on " ++ ljust bg_name 25
               ++ String ESC "[0m" ++ " "
               ++ ljust ("\033[" ++ str_of_nat n ++ ";" ++ str_of_nat m ++ "m")
                        15
               ++ " Example text").
Proof.
  intros H Hn Hm.
  split; [reflexivity|]. split; [vm_compute; reflexivity|].
  split; [now rewrite show_ansi_colors_appends|].
  split; [exact combinations_in_reference|].
  pose proof (fg_reference_lookup fg_name n Hn) as Hfg.
  pose proof (bg_reference_lookup bg_name m Hm) as Hbg.
  split; [exact Hfg|]. split; [exact Hbg|].
  destruct (comb_lookup i fg_name bg_name H) as [fc [bc [Hf [Hb [Hl _]]]]].
  rewrite Hfg in Hf. rewrite Hbg in Hb.
  injection Hf as <-. injection Hb as <-.
  rewrite comb_line_bytes in Hl. exact Hl.
Qed.

Lemma combinations_section_witness :
  dict_get fg_colors "Bright Red" = Some "91"
  /\ dict_get bg_colors "Bright Yellow" = Some "103"
  /\ nth_error comb_section 3
     = Some (String ESC "[91;103m"
               ++ "Bright Red on Bright Yellow            "
               ++ String ESC "[0m" ++ " "
               ++ "\033[91;103m   " ++ " Example text").
Proof.
  assert (Hn : In ("Bright Red", 91) fg_reference)
    by (do 9 right; left; reflexivity).
  assert (Hm : In ("Bright Yellow", 103) bg_reference)
    by (do 11 right; left; reflexivity).
  exact (proj2 (proj2 (proj2 (proj2
           (combinations_section 3 "Bright Red" "Bright Yellow" 91 103
              eq_refl Hn Hm))))).
Defined.

(** C5. On the line of every printed entry, foreground, background or
    combination, the documentation column is plain text: the characters
    backslash, 0, 3, 3, [, then the code (or the two codes around a
    semicolon), then m, padded with spaces and holding no byte 27; the
    styled column before it, and so the line, begins with byte 27. *)
Theorem doc_column_is_literal_text (e : entry) :
  printed e ->
  In (entry_line e) printed_lines
  /\ entry_line e
     = entry_styled e ++ " " ++ ljust (entry_doc e) (entry_doc_width e)
         ++ " Example text"
  /\ list_ascii_of_string (entry_doc e) = doc_pattern e
  /\ occurs ESC (ljust (entry_doc e) (entry_doc_width e)) = false
  /\ String.get 0 (entry_styled e) = Some ESC
  /\ String.get 0 (entry_line e) = Some ESC.
Proof.
  intros H.
  assert (Hshape :
            entry_line e
            = entry_styled e ++ " " ++ ljust (entry_doc e) (entry_doc_width e)
                ++ " Example text") by (destruct e; reflexivity).
  assert (Hpat : list_ascii_of_string (entry_doc e) = doc_pattern e).
  { destruct e; simpl; unfold ansi_seq, comb_ansi_seq;
      repeat (rewrite list_ascii_append; simpl); reflexivity. }
  assert (Hesc : String.get 0 (entry_styled e) = Some ESC)
    by (destruct e; reflexivity).
  assert (Hesc' : String.get 0 (entry_line e) = Some ESC)
    by (destruct e; reflexivity).
  split; [|split; [exact Hshape|split; [exact Hpat|split;
    [|split; [exact Hesc|exact Hesc']]]]]; clear Hshape Hpat Hesc Hesc'.
  - destruct e as [name code|name code|fg_name bg_name fg_code bg_code];
      cbn [printed entry_line entry_doc entry_doc_width] in H |- *.
    + apply section_lines_printed with (title := "FOREGROUND COLORS:").
      fold fg_section. rewrite fg_section_lines.
      exact (in_map (fun '(name, code) => fg_line name code) _ _ H).
    + apply section_lines_printed with (title := "BACKGROUND COLORS:").
      fold bg_section. rewrite bg_section_lines.
      exact (in_map (fun '(name, code) => bg_line name code) _ _ H).
    + destruct H as [Hin [Hf Hb]].
      apply In_nth_error in Hin. destruct Hin as [i Hi].
      destruct (comb_lookup i fg_name bg_name Hi)
        as [fc [bc [Hf' [Hb' [Hl _]]]]].
      rewrite Hf in Hf'. rewrite Hb in Hb'.
      injection Hf' as <-. injection Hb' as <-.
      apply section_lines_printed
        with (title := "COMBINATIONS (Foreground + Background):").
      fold comb_section. exact (nth_error_In _ _ Hl).
  - destruct e as [name code|name code|fg_name bg_name fg_code bg_code];
      cbn [printed entry_line entry_doc entry_doc_width] in H |- *.
    + pose proof fg_entries_plain as T. rewrite Forall_forall in T.
      exact (proj1 (T _ H)).
    + pose proof bg_entries_plain as T. rewrite Forall_forall in T.
      exact (proj1 (T _ H)).
    + destruct H as [Hin [Hf Hb]].
      apply In_nth_error in Hin. destruct Hin as [i Hi].
      destruct (comb_lookup i fg_name bg_name Hi)
        as [fc [bc [Hf' [Hb' [_ [Hocc _]]]]]].
      rewrite Hf in Hf'. rewrite Hb in Hb'.
      injection Hf' as <-. injection Hb' as <-. exact Hocc.
Qed.

Lemma doc_column_is_literal_text_witness :
  list_ascii_of_string (entry_doc (Comb "Yellow" "Bright Black" "33" "100"))
  = ["\"; "0"; "3"; "3"; "["; "3"; "3"; ";"; "1"; "0"; "0"; "m"]%char
  /\ occurs ESC (ljust (entry_doc (Bg "Bright Black" "100")) 10) = false
  /\ String.get 0 (entry_line (Fg "Red" "31")) = Some ESC.
Proof.
  split; [|split].
  - refine (proj1 (proj2 (proj2
      (doc_column_is_literal_text (Comb "Yellow" "Bright Black" "33" "100") _)))).
    simpl. repeat split; tauto.
  - refine (proj1 (proj2 (proj2 (proj2
      (doc_column_is_literal_text (Bg "Bright Black" "100") _))))).
    simpl. tauto.
  - refine (proj2 (proj2 (proj2 (proj2 (proj2
      (doc_column_is_literal_text (Fg "Red" "31") _)))))).
    simpl. tauto.
Defined.

(** C6. Every line of the foreground section is: the bytes 27, [, the
    entry's code, m; the name left-justified to 15 characters; the reset
    sequence 27, [, 0, m right after the padded name; a space; the text
    backslash 033[code m left-justified to 10 characters; and
    " Example text" at the end. *)
Theorem fg_line_layout (i : nat) (name code : string) :
  nth_error fg_colors i = Some (name, code) ->
  nth_error fg_section i
  = Some (String ESC "[" ++ code ++ "m" ++ ljust name 15
            ++ String ESC "[0m" ++ " "
            ++ ljust ("\033[" ++ code ++ "m") 10 ++ " Example text")
  /\ nth_error fg_section i = Some (fg_line name code)
  /\ fg_line name code
     = sgr code ++ ljust name 15 ++ reset ++ " "
         ++ ljust ("\033[" ++ code ++ "m") 10 ++ " Example text"
  /\ sgr code = String ESC "[" ++ code ++ "m"
  /\ reset = String ESC "[0m"
  /\ prefix name (ljust name 15) = true
  /\ String.length (ljust name 15) = 15
  /\ String.length (ljust ("\033[" ++ code ++ "m") 10) = 10
  /\ endswith (fg_line name code) "Example text" = true
  /\ visible (fg_line name code)
     = ljust name 15 ++ " " ++ ljust ("\033[" ++ code ++ "m") 10
         ++ " Example text".
Proof.
  intros H.
  pose proof fg_entries_plain as T. rewrite Forall_forall in T.
  destruct (T _ (nth_error_In _ _ H)) as [_ [T1 [T2 [T3 T4]]]].
  simpl in T1, T2, T3, T4.
  pose proof (fg_section_nth i name code H) as Hl.
  split; [rewrite <- fg_line_bytes; exact Hl|].
  split; [exact Hl|].
  split; [apply fg_line_pieces|].
  split; [reflexivity|].
  split; [reflexivity|].
  split; [apply ljust_prefix|].
  repeat split; assumption.
Qed.

Lemma fg_line_layout_witness :
  nth_error fg_section 1
  = Some (String ESC "[31m" ++ "Red            " ++ String ESC "[0m" ++ " "
            ++ "\033[31m  " ++ " Example text").
Proof.
  exact (proj1 (fg_line_layout 1 "Red" "31" eq_refl)).
Defined.

(** C7. Every code of the two tables is a numeric string in its range:
    read as a decimal number and written back it is unchanged, foreground
    codes lie in 30-37 or 90-97 and background codes in 40-47 or 100-107,
    for all sixteen entries of either table; and no statement of the
    function, nor any turn of its three loops, changes a table, so that
    the frame still holds both literals when the call returns. *)
Theorem codes_in_range_tables_untouched :
  Forall (fun x => numeric_in fg_range (snd x)) fg_colors
  /\ Forall (fun x => numeric_in bg_range (snd x)) bg_colors
  /\ List.length fg_colors = 16
  /\ List.length bg_colors = 16
  /\ Forall stable statements
  /\ (forall x, stable (fg_iteration x))
  /\ (forall x, stable (bg_iteration x))
  /\ (forall x, stable (comb_iteration x))
  /\ (forall out,
         f_fg_colors (snd (body (enter out))) = fg_colors
         /\ f_bg_colors (snd (body (enter out))) = bg_colors).
Proof.
  split; [|split].
  - unfold fg_colors.
    repeat (constructor;
            [eexists; split; [cbv; reflexivity|];
             split; [reflexivity | unfold fg_range; lia]|]).
    constructor.
  - unfold bg_colors.
    repeat (constructor;
            [eexists; split; [cbv; reflexivity|];
             split; [reflexivity | unfold bg_range; lia]|]).
    constructor.
  - split; [reflexivity|]. split; [reflexivity|].
    split; [exact stable_statements|].
    split; [exact stable_fg_iteration|].
    split; [exact stable_bg_iteration|].
    split; [exact stable_comb_iteration|].
    intros out. exact (stable_body (enter out)).
Qed.

(** C9. On every combination line the label is the foreground name,
    " on ", and the background name alone left-justified to 25
    characters, so the label is as long as the foreground name plus 29 and
    is not the whole label justified to 25; the documentation column is
    left-justified to 15 characters; and the label widths of the five
    lines differ with the foreground name. *)
Theorem comb_line_layout (i : nat) (fg_name bg_name : string) :
  nth_error combinations i = Some (fg_name, bg_name) ->
  map (fun '(f, b) => String.length (comb_label f b)) combinations
  = [41; 35; 40; 39; 34]
  /\ String.length (comb_label fg_name bg_name) = String.length fg_name + 29
  /\ comb_label fg_name bg_name <> ljust (fg_name ++ " on " ++ bg_name) 25
  /\ exists fg_code bg_code,
       nth_error comb_section i
       = Some (comb_line fg_name bg_name fg_code bg_code)
       /\ visible (comb_line fg_name bg_name fg_code bg_code)
          = (fg_name ++ " on " ++ ljust bg_name 25) ++ " "
              ++ ljust ("\033[" ++ fg_code ++ ";" ++ bg_code ++ "m") 15
              ++ " Example text"
       /\ String.length (ljust bg_name 25) = 25
       /\ String.length
            (ljust ("\033[" ++ fg_code ++ ";" ++ bg_code ++ "m") 15) = 15.
Proof.
  intros H.
  destruct (comb_lookup i fg_name bg_name H)
    as [fc [bc [_ [_ [Hl [_ [Hd [Hb Hv]]]]]]]].
  apply Nat.ltb_lt in Hb.
  assert (Hpad : String.length (ljust bg_name 25) = 25)
    by (rewrite ljust_length; lia).
  assert (Hlen : String.length (comb_label fg_name bg_name)
                 = String.length fg_name + 29).
  { rewrite comb_label_length. lia. }
  split; [vm_compute; reflexivity|].
  split; [exact Hlen|].
  split.
  - intros E. apply (f_equal String.length) in E.
    rewrite Hlen, ljust_length, !length_append in E.
    change (String.length " on ") with 4 in E. lia.
  - exists fc, bc. repeat split; assumption.
Qed.

Lemma comb_line_layout_witness :
  String.length (comb_label "Yellow" "Bright Black") = 6 + 29
  /\ comb_label "Yellow" "Bright Black"
     <> ljust ("Yellow" ++ " on " ++ "Bright Black") 25.
Proof.
  destruct (comb_line_layout 1 "Yellow" "Bright Black" eq_refl)
    as [_ [H1 [H2 _]]].
  split; assumption.
Defined.

(** C10. Every background line is styled by two sequences, one after the
    other: the bytes 27, [, the contrast text code, m, where that code is
    97 or 30 (97 exactly for the background codes 40 to 46 and 100), and
    then 27, [, the background code, m; it is not one sequence joining the
    two codes with a semicolon (the line holds three escape bytes, the
    third being the reset, and no semicolon), and its documentation
    column shows the background code alone. *)
Theorem bg_line_two_sequences (i : nat) (name code : string) :
  nth_error bg_colors i = Some (name, code) ->
  exists contrast,
    (contrast = "97" \/ contrast = "30")
    /\ (contrast = "97" <-> In code (map str_of_nat contrast_codes))
    /\ nth_error bg_section i
       = Some (String ESC "[" ++ contrast ++ "m"
                 ++ String ESC "[" ++ code ++ "m"
                 ++ ljust name 15 ++ String ESC "[0m" ++ " "
                 ++ ljust ("\033[" ++ code ++ "m") 10 ++ " Example text")
    /\ nth_error bg_section i = Some (bg_line name code)
    /\ prefix (String ESC "[" ++ contrast ++ ";" ++ code ++ "m")
              (bg_line name code) = false
    /\ count_char ESC (bg_line name code) = 3
    /\ count_char ";" (bg_line name code) = 0
    /\ visible (bg_line name code)
       = ljust name 15 ++ " " ++ ljust ("\033[" ++ code ++ "m") 10
           ++ " Example text".
Proof.
  intros H.
  pose proof bg_entries_plain as T. rewrite Forall_forall in T.
  destruct (T _ (nth_error_In _ _ H)) as [_ [T1 [T2 [T3 T4]]]].
  cbn [fst snd] in T1, T2, T3, T4.
  pose proof (bg_section_nth i name code H) as Hl.
  exists (text_color code).
  split; [apply text_color_values|].
  split; [exact (text_color_97_iff code)|].
  split; [rewrite <- bg_line_bytes; exact Hl|].
  split; [exact Hl|].
  repeat split; assumption.
Qed.

Lemma bg_line_two_sequences_witness :
  nth_error bg_section 8
  = Some (String ESC "[97m" ++ String ESC "[100m"
            ++ "Bright Black   " ++ String ESC "[0m" ++ " "
            ++ "\033[100m " ++ " Example text").
Proof.
  destruct (bg_line_two_sequences 8 "Bright Black" "100" eq_refl)
    as [contrast [_ [Hiff [Hl _]]]].
  assert (E : contrast = "97") by (apply Hiff; simpl; tauto).
  rewrite E in Hl. exact Hl.
Defined.

(** * Further properties of the function *)

(** X1. What a terminal shows of an entry's line is the padded name (or
    label), a space, the padded documentation text and " Example text",
    with every control sequence gone: this holds for any names made of
    printable characters and any codes made of parameter bytes (digits
    and [: ; < = > ?]), and every entry the function prints is of that
    kind. *)
Theorem visible_text_of_entry (e : entry) :
  (printed e -> entry_plain e)
  /\ (entry_plain e -> visible (entry_line e) = entry_text e).
Proof.
  split; [apply printed_entry_plain | apply visible_entry_line].
Qed.

Lemma visible_text_of_entry_witness :
  visible (fg_line "Orange" "38;5;208")
  = "Orange          \033[38;5;208m Example text"
  /\ visible (comb_line "Red" "Blue" "31" "44")
     = comb_label "Red" "Blue" ++ " " ++ ljust "\033[31;44m" 15
         ++ " Example text".
Proof.
  split.
  - refine (proj2 (visible_text_of_entry (Fg "Orange" "38;5;208")) _).
    vm_compute. repeat split; reflexivity.
  - refine (proj2 (visible_text_of_entry (Comb "Red" "Blue" "31" "44")) _).
    vm_compute. repeat split; reflexivity.
Defined.

(** X2. The columns of a foreground or background line line up: for a
    printable name and a code of parameter bytes, with a name of at most
    15 characters and a code of at most 4, the line shows exactly 39
    columns whatever the entry; a longer name or code is never cut, it
    widens its column, the width being
    max(len name, 15) + max(len code + 6, 10) + 14, and the name always
    stands first. *)
Theorem single_colour_line_width (name code : string) :
  printable name -> params code ->
  String.length (visible (fg_line name code))
  = Nat.max (String.length name) 15
    + Nat.max (String.length code + 6) 10 + 14
  /\ String.length (visible (bg_line name code))
     = String.length (visible (fg_line name code))
  /\ prefix name (visible (fg_line name code)) = true
  /\ prefix name (visible (bg_line name code)) = true
  /\ (String.length name <= 15 -> String.length code <= 4 ->
      String.length (visible (fg_line name code)) = 39).
Proof.
  intros Hn Hc.
  pose proof (visible_entry_line (Fg name code) (conj Hn Hc)) as Ef.
  pose proof (visible_entry_line (Bg name code) (conj Hn Hc)) as Eb.
  cbn [entry_line entry_text] in Ef, Eb.
  assert (Hlen : String.length
                   (ljust name 15 ++ " " ++ ljust (ansi_seq code) 10
                      ++ " Example text")
                 = Nat.max (String.length name) 15
                   + Nat.max (String.length code + 6) 10 + 14).
  { rewrite !length_append, !ljust_length. unfold ansi_seq.
    rewrite !length_append.
    change (String.length "\033[") with 5.
    change (String.length "m") with 1.
    change (String.length " ") with 1.
    change (String.length " Example text") with 13. lia. }
  assert (Hpre : prefix name
                   (ljust name 15 ++ " " ++ ljust (ansi_seq code) 10
                      ++ " Example text") = true).
  { unfold ljust at 1. rewrite append_assoc. apply prefix_append. }
  rewrite Eb, Ef.
  split; [exact Hlen|]. split; [reflexivity|].
  split; [exact Hpre|]. split; [exact Hpre|].
  intros H1 H2. rewrite Hlen. lia.
Qed.

Lemma single_colour_line_width_witness :
  String.length (visible (fg_line "Bright Magenta" "95")) = 39
  /\ String.length (visible (bg_line "Bright Magenta" "105")) = 39.
Proof.
  assert (P1 : printable "Bright Magenta") by reflexivity.
  assert (C1 : params "95") by reflexivity.
  assert (C2 : params "105") by reflexivity.
  destruct (single_colour_line_width "Bright Magenta" "95" P1 C1)
    as [_ [_ [_ [_ H1]]]].
  destruct (single_colour_line_width "Bright Magenta" "105" P1 C2)
    as [_ [H2 [_ [_ H3]]]].
  split.
  - apply H1; simpl; lia.
  - rewrite H2. apply H3; simpl; lia.
Defined.



(** X4. The documentation column documents the sequence the line really
    emits: written with each escape byte as backslash 033, the sequence
    that styles the entry (for a background line, the second of its two
    sequences) is the documentation text, and the line opens with that
    sequence; likewise the third usage note, which the function prints,
    ends with the reset written that way, and the example of the second
    note is the documentation text of red on blue, both codes taken from
    the tables. *)
Theorem doc_column_documents_sequence (e : entry) :
  entry_codes_plain e ->
  prefix (entry_lead e ++ entry_seq e) (entry_line e) = true
  /\ escape_repr (entry_seq e) = entry_doc e
  /\ In ("3. Reset formatting with " ++ escape_repr (String ESC "[0m"))
        printed_lines
  /\ (exists red blue,
         dict_get fg_colors "Red" = Some red
         /\ dict_get bg_colors "Blue" = Some blue
         /\ In ("2. Separate multiple codes with semicolons (e.g., "
                  ++ escape_repr (String ESC "[" ++ red ++ ";" ++ blue ++ "m")
                  ++ ")")
               printed_lines).
Proof.
  intros H.
  split; [|split; [|split]].
  - destruct e as [name code|name code|fg_name bg_name fg_code bg_code];
      cbn [entry_lead entry_seq entry_line].
    + apply prefix_of_eq
        with (rest := ljust name 15 ++ String ESC "[0m" ++ " "
                        ++ ljust ("\033[" ++ code ++ "m") 10
                        ++ " Example text").
      rewrite fg_line_bytes, !append_assoc. reflexivity.
    + apply prefix_of_eq
        with (rest := ljust name 15 ++ String ESC "[0m" ++ " "
                        ++ ljust ("\033[" ++ code ++ "m") 10
                        ++ " Example text").
      rewrite bg_line_bytes, !append_assoc. reflexivity.
    + apply prefix_of_eq
        with (rest := fg_name ++ " on " ++ ljust bg_name 25
                        ++ String ESC "[0m" ++ " "
                        ++ ljust ("\033[" ++ fg_code ++ ";" ++ bg_code ++ "m")
                                 15
                        ++ " Example text").
      rewrite comb_line_bytes, !append_assoc. reflexivity.
  - destruct e as [name code|name code|fg_name bg_name fg_code bg_code];
      cbn [entry_codes_plain entry_seq entry_doc] in H |- *.
    + apply escape_repr_csi. unfold plain in *.
      now rewrite occurs_append, H.
    + apply escape_repr_csi. unfold plain in *.
      now rewrite occurs_append, H.
    + destruct H as [Hf Hb]. apply escape_repr_csi. unfold plain in *.
      now rewrite !occurs_append, Hf, Hb.
  - apply (nth_error_In _ 54). vm_compute. reflexivity.
  - exists "31", "44". split; [reflexivity|]. split; [reflexivity|].
    apply (nth_error_In _ 53). vm_compute. reflexivity.
Qed.

Lemma doc_column_documents_sequence_witness :
  escape_repr (String ESC "[91;103m") = "\033[91;103m"
  /\ prefix (String ESC "[30m" ++ String ESC "[107m")
            (bg_line "Bright White" "107") = true.
Proof.
  split.
  - refine (proj1 (proj2
      (doc_column_documents_sequence
         (Comb "Bright Red" "Bright Yellow" "91" "103") _))).
    split; reflexivity.
  - refine (proj1
      (doc_column_documents_sequence (Bg "Bright White" "107") _)).
    reflexivity.
Defined.

(** X5. On tables that lack a name of some combination, the combination
    loop stops at the first such pair with KeyError: on the foreground
    name if it is missing, otherwise on the background name; the lines of
    the pairs before it are already written, nothing is written for that
    pair or the later ones, and the tables are as they were. *)
Theorem comb_loop_stops_at_missing_key
        (fg bg : dict) (out : string) (xs ys : list (string * string))
        (f b : string) :
  combinations = (xs ++ (f, b) :: ys)%list ->
  Forall (present fg bg) xs ->
  ~ present fg bg (f, b) ->
  comb_loop (mkFrame fg bg out)
  = (KeyError (match dict_get fg f with None => f | Some _ => b end),
     mkFrame fg bg (out ++ flat (map (comb_text fg bg) xs))).
Proof.
  intros E Hxs Hx. unfold comb_loop. rewrite E.
  now apply for_each_comb_absent.
Qed.

Lemma comb_loop_stops_at_missing_key_witness :
  comb_loop (mkFrame [("Bright White", "97")] bg_colors "so far:")
  = (KeyError "Yellow",
     mkFrame [("Bright White", "97")] bg_colors
             ("so far:"
                ++ flat [comb_line "Bright White" "Blue" "97" "44" ++ chr NL])).
Proof.
  refine (comb_loop_stops_at_missing_key
            [("Bright White", "97")] bg_colors "so far:"
            [("Bright White", "Blue")] _ "Yellow" "Bright Black"
            eq_refl _ _).
  - constructor; [split; discriminate | constructor].
  - intros [H _]. now apply H.
Defined.

(** X6. On any tables and for any list of pairs, the combination loop
    returns normally exactly when both names of every pair are keys of
    their tables; the literals of the function are such tables for its
    five pairs. *)
Theorem comb_loop_returns_iff_all_present
        (fg bg : dict) (out : string) (xs : list (string * string)) :
  (fst (for_each xs comb_iteration (mkFrame fg bg out)) = Ok tt
   <-> Forall (present fg bg) xs)
  /\ Forall (present fg_colors bg_colors) combinations.
Proof.
  split.
  - split.
    + revert out. induction xs as [|[f b] xs IH]; intros out H;
        [constructor|].
      cbn [for_each] in H. unfold bind in H.
      destruct (present_dec fg bg (f, b)) as [Hp|Hn].
      * rewrite (comb_iteration_present fg bg (f, b) Hp out) in H.
        constructor; [exact Hp | exact (IH _ H)].
      * rewrite (comb_iteration_absent fg bg f b out Hn) in H.
        discriminate H.
    + intros H. now rewrite (for_each_comb_present fg bg xs H out).
  - unfold combinations.
    repeat (constructor; [split; vm_compute; discriminate|]). constructor.
Qed.

Lemma comb_loop_returns_iff_all_present_witness :
  fst (for_each [("Red", "Blue")] comb_iteration
                (mkFrame fg_colors bg_colors EmptyString)) = Ok tt.
Proof.
  apply (proj1 (comb_loop_returns_iff_all_present
                  fg_colors bg_colors EmptyString [("Red", "Blue")])).
  constructor; [split; vm_compute; discriminate | constructor].
Defined.

(** X7. No name is written twice in either table, so looking a name up
    and meeting it while iterating agree: [(name, code)] is an entry of a
    table exactly when the table maps [name] to [code]. *)
Theorem lookup_agrees_with_iteration (name code : string) :
  NoDup (keys fg_colors)
  /\ NoDup (keys bg_colors)
  /\ (In (name, code) fg_colors <-> dict_get fg_colors name = Some code)
  /\ (In (name, code) bg_colors <-> dict_get bg_colors name = Some code).
Proof.
  split; [exact fg_colors_keys_NoDup|].
  split; [exact bg_colors_keys_NoDup|].
  split; split.
  - apply In_dict_get, fg_colors_keys_NoDup.
  - apply dict_get_In.
  - apply In_dict_get, bg_colors_keys_NoDup.
  - apply dict_get_In.
Qed.

Lemma lookup_agrees_with_iteration_witness :
  dict_get bg_colors "Bright Cyan" = Some "106".
Proof.
  apply (proj1 (proj2 (proj2 (proj2
           (lookup_agrees_with_iteration "Bright Cyan" "106"))))).
  simpl. tauto.
Defined.

(** X8. The two tables are numbered alike: whenever a name has the
    foreground code [fc] and the background code [bc], [bc] read as a
    number is [fc] plus 10; and the Bright variant of a standard name has
    the foreground code of that name plus 60. *)
Theorem background_code_is_foreground_plus_10 (name fc bc : string) :
  dict_get fg_colors name = Some fc ->
  dict_get bg_colors name = Some bc ->
  exists n,
    int_of_str fc = Some n
    /\ int_of_str bc = Some (n + 10)
    /\ (In name standard_names ->
        exists bright,
          dict_get fg_colors ("Bright " ++ name) = Some bright
          /\ int_of_str bright = Some (n + 60)).
Proof.
  intros Hf Hb.
  assert (T : Forall
                (fun x =>
                   match dict_get bg_colors (fst x), int_of_str (snd x) with
                   | Some c, Some n =>
                       int_of_str c = Some (n + 10)
                       /\ (str_in (fst x) standard_names = true ->
                           match dict_get fg_colors ("Bright " ++ fst x) with
                           | Some bright => int_of_str bright = Some (n + 60)
                           | None => False
                           end)
                   | _, _ => False
                   end) fg_colors).
  { unfold fg_colors.
    repeat (constructor;
            [vm_compute; split; [reflexivity | intros H; first
               [reflexivity | discriminate H]]|]).
    constructor. }
  rewrite Forall_forall in T.
  specialize (T _ (dict_get_In _ _ _ Hf)). cbn [fst snd] in T.
  rewrite Hb in T.
  destruct (int_of_str fc) as [n|]; [|contradiction].
  destruct T as [T1 T2].
  exists n. split; [reflexivity|]. split; [exact T1|].
  intros Hin. apply str_in_In in Hin. specialize (T2 Hin).
  destruct (dict_get fg_colors ("Bright " ++ name)) as [bright|];
    [|contradiction].
  now exists bright.
Qed.

Lemma background_code_is_foreground_plus_10_witness :
  exists n,
    int_of_str "35" = Some n /\ int_of_str "45" = Some (n + 10).
Proof.
  destruct (background_code_is_foreground_plus_10 "Magenta" "35" "45"
              eq_refl eq_refl) as [n [H1 [H2 _]]].
  exists n. split; assumption.
Defined.

(** X9. Text is never printed in the colour of its own background: on a
    background line the contrast text code is not the foreground code of
    the line's own colour name, and in a combination the two names
    differ. *)
Theorem text_never_in_background_colour (name code : string) :
  (In (name, code) bg_colors ->
   dict_get fg_colors name <> Some (text_color code))
  /\ (In (name, code) combinations -> name <> code).
Proof.
  split; intros H.
  - assert (T : Forall
                  (fun x => dict_get fg_colors (fst x)
                            <> Some (text_color (snd x))) bg_colors).
    { unfold bg_colors.
      repeat (constructor; [vm_compute; discriminate|]). constructor. }
    rewrite Forall_forall in T. exact (T _ H).
  - assert (T : Forall (fun x => fst x <> snd x) combinations).
    { unfold combinations.
      repeat (constructor; [cbn [fst snd]; discriminate|]). constructor. }
    rewrite Forall_forall in T. exact (T _ H).
Qed.

Lemma text_never_in_background_colour_witness :
  dict_get fg_colors "Bright White" <> Some (text_color "107").
Proof.
  apply (proj1 (text_never_in_background_colour "Bright White" "107")).
  simpl. tauto.
Defined.

(** X10. The shape of the whole output: one call writes 56 lines, each
    ended by a newline, the last character written being a newline; no
    line shows more than the 80 columns of the banner; and every line
    with a control sequence has the reset as its last one, so that no
    colour is left on for the next line. *)
Theorem output_layout :
  count_char NL output = 56
  /\ List.length printed_lines = 57
  /\ last printed_lines "x" = EmptyString
  /\ Forall (fun l => String.length (visible l) <= 80) printed_lines
  /\ Forall (fun l => after_last_esc l = None
                      \/ exists rest, after_last_esc l = Some ("[0m" ++ rest))
            printed_lines.
Proof.
  split; [vm_compute; reflexivity|].
  split; [vm_compute; reflexivity|].
  split; [vm_compute; reflexivity|].
  split.
  - assert (H : forallb (fun l => String.length (visible l) <=? 80)%nat
                        printed_lines = true) by (vm_compute; reflexivity).
    pose proof (proj1 (forallb_forall _ _) H) as H'. clear H.
    apply Forall_forall. intros l Hl.
    specialize (H' l Hl). clear Hl. cbv beta in H'.
    apply Nat.leb_le. exact H'.
  - assert (H : forallb (fun l => match after_last_esc l with
                                  | None => true
                                  | Some t => prefix "[0m" t
                                  end) printed_lines = true)
      by (vm_compute; reflexivity).
    pose proof (proj1 (forallb_forall _ _) H) as H'. clear H.
    apply Forall_forall. intros l Hl.
    specialize (H' l Hl). clear Hl. cbv beta in H'.
    destruct (after_last_esc l) as [t|]; [right | left; reflexivity].
    destruct (prefix_split _ _ H') as [rest ->]. exists rest. reflexivity.
Qed.
